(** * Blank-line paragraphing and clause placement of the JavaScript printer

    A shallow embedding of

    - [src/language-js/print/statement-sequence.js]: the statement
      classifiers, the decision function [shouldEnforceBlankLineBetween]
      and the emission loop [printStatementSequence];
    - [src/language-js/print/try-statement.js]: [printTryStatement] and
      [printCatchClause].

    AST nodes are records holding the fields the printers read; node types
    stay strings and are compared with string equality, as in the source.
    Docs are the arrays, strings and commands the printers build. *)

From Stdlib Require Import String Bool Arith Lia.
From stdpp Require Import base list strings.

Open Scope string_scope.
Open Scope list_scope.

(** ** AST nodes *)

(** The [id] of a declarator carries a [type] ("Identifier",
    "ObjectPattern", ...); so does its [init]. Only the [type] is read. *)
Record Child := { ctype : string }.

Record VariableDeclarator := {
  id : option Child;       (* [decl.id], falsy when absent *)
  init : option Child      (* [decl.init], [null] without initializer *)
}.

(** A statement node. [ref] stands for the identity of the JS object: the
    emission loop compares nodes with [!==], which is reference comparison.
    [kind] and [declarations] are only read on VariableDeclaration nodes. *)
Record Node := {
  ref : nat;
  type : string;
  kind : string;
  declarations : list VariableDeclarator
}.

Definition type_is (t : string) (node : Node) : bool :=
  String.eqb (type node) t.

(** [Array.prototype.some] *)
Definition some {A} (f : A -> bool) (l : list A) : bool := existsb f l.

Module Classify.

(** ** Statement classification helpers *)

Definition isImportOrExport (node : Node) : bool :=
  type_is "ImportDeclaration" node ||
  type_is "ExportNamedDeclaration" node ||
  type_is "ExportDefaultDeclaration" node ||
  type_is "ExportAllDeclaration" node ||
  type_is "DeclareExportDeclaration" node ||
  type_is "DeclareExportAllDeclaration" node.

Definition isTopLevelDeclaration (node : Node) : bool :=
  type_is "FunctionDeclaration" node ||
  type_is "ClassDeclaration" node ||
  type_is "TSInterfaceDeclaration" node ||
  type_is "TSTypeAliasDeclaration" node ||
  type_is "TSEnumDeclaration" node ||
  type_is "TSModuleDeclaration" node ||
  type_is "DeclareClass" node ||
  type_is "DeclareFunction" node ||
  type_is "DeclareInterface" node ||
  type_is "DeclareTypeAlias" node ||
  type_is "DeclareModule" node ||
  type_is "InterfaceDeclaration" node ||
  type_is "TypeAlias" node ||
  type_is "EnumDeclaration" node ||
  type_is "ComponentDeclaration" node ||
  type_is "HookDeclaration" node.

Definition isVariableDeclaration (node : Node) : bool :=
  type_is "VariableDeclaration" node.

(** [decl.id && (decl.id.type === "ObjectPattern" || ... "ArrayPattern")] *)
Definition hasPatternId (decl : VariableDeclarator) : bool :=
  match id decl with
  | Some i => String.eqb (ctype i) "ObjectPattern" ||
              String.eqb (ctype i) "ArrayPattern"
  | None => false
  end.

Definition isDestructuringDeclaration (node : Node) : bool :=
  if negb (isVariableDeclaration node) then false
  else some hasPatternId (declarations node).

(** [null] for a node that is no VariableDeclaration *)
Definition getDeclarationKind (node : Node) : option string :=
  if negb (isVariableDeclaration node) then None
  else Some (kind node).

Definition isBlockStatement (node : Node) : bool :=
  type_is "IfStatement" node ||
  type_is "ForStatement" node ||
  type_is "ForInStatement" node ||
  type_is "ForOfStatement" node ||
  type_is "WhileStatement" node ||
  type_is "DoWhileStatement" node ||
  type_is "TryStatement" node ||
  type_is "SwitchStatement" node ||
  type_is "WithStatement" node ||
  type_is "BlockStatement" node ||
  type_is "LabeledStatement" node.

Definition isReturnLikeStatement (node : Node) : bool :=
  type_is "ReturnStatement" node.

(** [decl.init && (decl.init.type === "FunctionExpression" ||
    decl.init.type === "ArrowFunctionExpression")], the callback the source
    writes out three times. *)
Definition hasFunctionInit (decl : VariableDeclarator) : bool :=
  match init decl with
  | Some i => String.eqb (ctype i) "FunctionExpression" ||
              String.eqb (ctype i) "ArrowFunctionExpression"
  | None => false
  end.

Definition isParagraphStatement (node : Node) : bool :=
  isTopLevelDeclaration node ||
  isBlockStatement node ||
  (type_is "VariableDeclaration" node &&
   some hasFunctionInit (declarations node)).

(** JS [!==] on the results of [getDeclarationKind] ([null] or a string) *)
Definition kind_differs (a b : option string) : bool :=
  match a, b with
  | Some x, Some y => negb (String.eqb x y)
  | None, None => false
  | _, _ => true
  end.

Definition areInSameDeclarationBlock (current next : Node) : bool :=
  if negb (isVariableDeclaration current) || negb (isVariableDeclaration next)
  then false
  else if isDestructuringDeclaration current || isDestructuringDeclaration next
  then false
  else if kind_differs (getDeclarationKind current) (getDeclarationKind next)
  then false
  else
    let currentHasFunction := some hasFunctionInit (declarations current) in
    let nextHasFunction := some hasFunctionInit (declarations next) in
    if currentHasFunction || nextHasFunction then false
    else true.

End Classify.

Module Decide.
Import Classify.

(** ** Blank line enforcement *)

Definition shouldEnforceBlankLineBetween (current next : Node) : bool :=
  if isImportOrExport current && negb (isImportOrExport next) then true
  else if isImportOrExport current && isImportOrExport next then false
  else if areInSameDeclarationBlock current next then false
  else if isVariableDeclaration current &&
          negb (areInSameDeclarationBlock current next) &&
          negb (isReturnLikeStatement next) then true
  else if isVariableDeclaration next &&
          negb (isVariableDeclaration current) &&
          negb (isImportOrExport current) then true
  else if isParagraphStatement current || isParagraphStatement next then true
  else if isReturnLikeStatement next && isParagraphStatement current then true
  else if isReturnLikeStatement next && isBlockStatement current then true
  else false.

(** The decision as the specification words it: rules 1 to 6 in order, the
    first that matches decides, otherwise no blank line. Kept apart from
    the source's function to compare the two. *)
Definition requiresBlank (current next : Node) : bool :=
  if isImportOrExport current && negb (isImportOrExport next) then true
  else if isImportOrExport current && isImportOrExport next then false
  else if areInSameDeclarationBlock current next then false
  else if isVariableDeclaration current &&
          negb (areInSameDeclarationBlock current next) &&
          negb (isReturnLikeStatement next) then true
  else if isVariableDeclaration next &&
          negb (isVariableDeclaration current) &&
          negb (isImportOrExport current) then true
  else if isParagraphStatement current || isParagraphStatement next then true
  else false.

End Decide.

(** ** Docs *)

(** The fragment of the document language these printers deal with:
    strings, arrays (concatenation) and the commands [hardline], [softline]
    and [indent] imported from [document/index.js]. [group] is the grouping
    command of the same language: the printers modelled here import and
    build none, the docs that [print] hands back may hold some. *)
#[warnings="-register-all"] Inductive Doc :=
| DString (s : string)
| DArray (parts : list Doc)
| hardline
| softline
| indent (contents : Doc)
| group (contents : Doc).

Module Sequence.
Import Classify Decide.

(** ** The emission loop *)

Section Emitter.

(** [print()] renders the node the path points at; [isNextLineEmpty] is the
    imported source-gap test, with [options] (its second argument) fixed. *)
Variable print : Node -> Doc.
Variable isNextLineEmpty : Node -> bool.

(** [currentNode !== lastStatement]: reference comparison, and
    [statements.at(-1)] is [undefined] for an empty array. *)
Definition differs_from (currentNode : Node) (lastStatement : option Node)
  : bool :=
  match lastStatement with
  | Some l => negb (Nat.eqb (ref currentNode) (ref l))
  | None => true
  end.

(** The state the callback of [path.each] updates: [parts] and [index]. *)
Definition LoopState : Type := list Doc * nat.

Definition callback (statements : list Node) (lastStatement : option Node)
    (st : LoopState) (currentNode : Node) : LoopState :=
  let '(parts, index) := st in
  if type_is "EmptyStatement" currentNode then st
  else
    let parts := parts ++ [print currentNode] in
    let parts :=
      if differs_from currentNode lastStatement then
        let nextNode := statements !! (index + 1) in
        let hasBlankLineInSource := isNextLineEmpty currentNode in
        let shouldEnforceBlank :=
          match nextNode with
          | Some n => shouldEnforceBlankLineBetween currentNode n
          | None => false
          end in
        let parts := parts ++ [hardline] in
        if hasBlankLineInSource || shouldEnforceBlank
        then parts ++ [hardline]
        else parts
      else parts in
    (parts, index + 1).

(** [body] is [node[property]], the unfiltered statement list. *)
Definition printStatementSequence (body : list Node) : list Doc :=
  let statements :=
    filter (fun statement => type statement <> "EmptyStatement") body in
  let lastStatement := last statements in
  fst (fold_left (callback statements lastStatement) body ([], 0)).

(** The emitter as the specification words it, over the filtered sequence:
    every statement but the last is followed by one mandatory line break
    and by one more when the source had a gap after it or the decision rule
    fires; the last statement is followed by nothing. *)
Definition separator (current next : Node) : list Doc :=
  hardline ::
  (if isNextLineEmpty current || shouldEnforceBlankLineBetween current next
   then [hardline] else []).

Fixpoint emit (statements : list Node) : list Doc :=
  match statements with
  | [] => []
  | current :: rest =>
      match rest with
      | [] => [print current]
      | next :: _ => print current :: separator current next ++ emit rest
      end
  end.

(** The other reading of the source-gap lookup, as the specification words
    it: the gap before a statement is asked of the last statement that
    precedes it in the unfiltered list, [prev], be it empty or not. *)
Fixpoint emitAfter (current prev : Node) (rest : list Node) : list Doc :=
  match rest with
  | [] => []
  | next :: rest' =>
      if type_is "EmptyStatement" next then emitAfter current next rest'
      else
        hardline ::
        (if isNextLineEmpty prev || shouldEnforceBlankLineBetween current next
         then [hardline] else []) ++
        print next :: emitAfter next next rest'
  end.

Fixpoint emitUnfilteredGap (body : list Node) : list Doc :=
  match body with
  | [] => []
  | first :: rest =>
      if type_is "EmptyStatement" first then emitUnfilteredGap rest
      else print first :: emitAfter first first rest
  end.

End Emitter.

(** [node[property]] without its empty statements, in the original order. *)
Definition withoutEmpty (body : list Node) : list Node :=
  filter (fun statement => type statement <> "EmptyStatement") body.

End Sequence.

Module TryStatement.

(** ** try / catch / finally *)

(** A comment attached to a node: the flags the comment attachment sets and
    the offsets [locStart] and [locEnd] read. *)
Record Comment := {
  comment_type : string;
  leading : bool;
  trailing : bool;
  locStart : nat;
  locEnd : nat
}.

(** A child node handed to [print]: the try block, the bound parameter, the
    handler body, the finalizer. Only its attached comments are inspected. *)
Record SubNode := {
  sref : nat;
  comments : list Comment
}.

Record CatchClause := {
  param : option SubNode;
  body : SubNode
}.

Record TryNode := {
  block : SubNode;
  handler : option CatchClause;
  finalizer : option SubNode
}.

Record Options := { originalText : string }.

(** Modelled from the spec: [hasComment] of [utilities/index.js] is not
    among the sources. The parameter "carries an attached comment that"
    satisfies the test: some comment attached to the node passes [fn]. *)
Definition hasComment (node : SubNode) (fn : Comment -> bool) : bool :=
  some fn (comments node).

Section Printers.

(** [print(property)]: the main printer applied to a child node. *)
Variable print : SubNode -> Doc.
(** [isBlockComment] and [hasNewline(text, index, {backwards})] are imported
    from files that are not among the sources. *)
Variable isBlockComment : Comment -> bool.
Variable hasNewline : string -> nat -> bool -> bool.

Definition commentForcesBreak (options : Options) (comment : Comment)
  : bool :=
  negb (isBlockComment comment) ||
  (leading comment &&
   hasNewline (originalText options) (locEnd comment) false) ||
  (trailing comment &&
   hasNewline (originalText options) (locStart comment) true).

Definition printCatchClause (options : Options) (node : CatchClause) : Doc :=
  match param node with
  | Some p =>
      let parameterHasComments := hasComment p (commentForcesBreak options) in
      let param := print p in
      DArray [
        hardline;
        DString "catch ";
        (if parameterHasComments
         then DArray [DString "("; indent (DArray [softline; param]);
                      softline; DString ") "]
         else DArray [DString "("; param; DString ") "]);
        print (body node)
      ]
  | None => DArray [hardline; DString "catch "; print (body node)]
  end.

(** [print("handler")] reaches [printCatchClause] through the main printer,
    which dispatches on the node type. *)
Definition printTryStatement (options : Options) (node : TryNode) : Doc :=
  DArray [
    DString "try ";
    print (block node);
    match handler node with
    | Some h => DArray [DString " "; printCatchClause options h]
    | None => DString ""
    end;
    match finalizer node with
    | Some f => DArray [hardline; DString "finally "; print f]
    | None => DString ""
    end
  ].

(** The test on an attached comment as the specification words it: the
    comment is not block-style, or it is a block-style leading comment with
    a newline after its end, or a block-style trailing comment with a
    newline before its start. *)
Definition attachedCommentBreaks (options : Options) (comment : Comment)
  : bool :=
  negb (isBlockComment comment) ||
  (isBlockComment comment && leading comment &&
   hasNewline (originalText options) (locEnd comment) false) ||
  (isBlockComment comment && trailing comment &&
   hasNewline (originalText options) (locStart comment) true).

End Printers.

(** The breaking form of the parameter as the specification words it, "an
    indented, breakable group": the parenthesised parameter with its two
    optional breaks, held in a [group]. *)
Definition groupedParameter (param : Doc) : Doc :=
  group (DArray [DString "("; indent (DArray [softline; param]);
                 softline; DString ") "]).

End TryStatement.

(** ** Reading a doc as a stream *)

(** What the layout engine walks through, left to right: the texts and the
    break commands of a doc, with the extent of each [indent] and of each
    [group] marked. An empty string contributes nothing. *)
Inductive Token :=
| TText (s : string)
| THard
| TSoft
| TIndent
| TDedent
| TGroup
| TGroupEnd.

Fixpoint tokens (d : Doc) : list Token :=
  match d with
  | DString s => if String.eqb s "" then [] else [TText s]
  | DArray parts =>
      (fix go (ds : list Doc) : list Token :=
         match ds with
         | [] => []
         | d' :: ds' => tokens d' ++ go ds'
         end) parts
  | hardline => [THard]
  | softline => [TSoft]
  | indent contents => TIndent :: tokens contents ++ [TDedent]
  | group contents => TGroup :: tokens contents ++ [TGroupEnd]
  end.

Definition tokens_of (ds : list Doc) : list Token :=
  flat_map tokens ds.

Module Rules.
Import Classify.

(** ** The guards of the decision, rule by rule *)

(** The conditions of the first five branches of
    [shouldEnforceBlankLineBetween], named to state which rule resolves a
    pair. *)
Definition rule1 (current next : Node) : bool :=
  isImportOrExport current && negb (isImportOrExport next).

Definition rule2 (current next : Node) : bool :=
  isImportOrExport current && isImportOrExport next.

Definition rule3 (current next : Node) : bool :=
  areInSameDeclarationBlock current next.

Definition rule4 (current next : Node) : bool :=
  isVariableDeclaration current &&
  negb (areInSameDeclarationBlock current next) &&
  negb (isReturnLikeStatement next).

Definition rule5 (current next : Node) : bool :=
  isVariableDeclaration next &&
  negb (isVariableDeclaration current) &&
  negb (isImportOrExport current).

Definition resolvedByRules1to5 (current next : Node) : bool :=
  rule1 current next || rule2 current next || rule3 current next ||
  rule4 current next || rule5 current next.

End Rules.

Module Examples.

(** ** Statements of the scenarios *)

Definition simpleDeclarator (initType : string) : VariableDeclarator :=
  {| id := Some {| ctype := "Identifier" |};
     init := Some {| ctype := initType |} |}.

Definition declaration (r : nat) (k : string) (ds : list VariableDeclarator)
  : Node :=
  {| ref := r; type := "VariableDeclaration"; kind := k; declarations := ds |}.

Definition statement (r : nat) (t : string) : Node :=
  {| ref := r; type := t; kind := ""; declarations := [] |}.

(** [const a = 1; const b = 2; let c = 3;] *)
Definition const_a : Node := declaration 1 "const" [simpleDeclarator "NumericLiteral"].
Definition const_b : Node := declaration 2 "const" [simpleDeclarator "NumericLiteral"].
Definition let_c : Node := declaration 3 "let" [simpleDeclarator "NumericLiteral"].

(** [if (x) { f(); } return y;] *)
Definition if_x : Node := statement 1 "IfStatement".
Definition return_y : Node := statement 2 "ReturnStatement".

(** [a(); ; b();] with the middle statement empty *)
Definition call_a : Node := statement 1 "ExpressionStatement".
Definition empty : Node := statement 2 "EmptyStatement".
Definition call_b : Node := statement 3 "ExpressionStatement".

(** A renderer that tells the statements apart. *)
Definition show (n : Node) : Doc := DString (type n).

(** A source with a blank line after the statement of reference [r] only. *)
Definition gapAfter (r : nat) (n : Node) : bool := Nat.eqb (ref n) r.

(** [try { risky(); } catch (e) { handle(e); } finally { cleanup(); }],
    the parameter once bare and once with a line comment after it. *)
Import TryStatement.

Definition lineComment : Comment :=
  {| comment_type := "CommentLine"; leading := false; trailing := true;
     locStart := 25; locEnd := 33 |}.

Definition tryBlock : SubNode := {| sref := 1; comments := [] |}.
Definition bareParam : SubNode := {| sref := 2; comments := [] |}.
Definition commentedParam : SubNode :=
  {| sref := 2; comments := [lineComment] |}.
Definition handlerBody : SubNode := {| sref := 3; comments := [] |}.
Definition finallyBlock : SubNode := {| sref := 4; comments := [] |}.

Definition catchBare : CatchClause :=
  {| param := Some bareParam; body := handlerBody |}.
Definition catchCommented : CatchClause :=
  {| param := Some commentedParam; body := handlerBody |}.
Definition catchNoParam : CatchClause :=
  {| param := None; body := handlerBody |}.

(** [catch (e /* why */)] on one line *)
Definition blockComment : Comment :=
  {| comment_type := "CommentBlock"; leading := false; trailing := true;
     locStart := 25; locEnd := 34 |}.
Definition blockCommentedParam : SubNode :=
  {| sref := 2; comments := [blockComment] |}.
Definition catchBlockCommented : CatchClause :=
  {| param := Some blockCommentedParam; body := handlerBody |}.

Definition tryCatchFinally : TryNode :=
  {| block := tryBlock; handler := Some catchBare;
     finalizer := Some finallyBlock |}.
Definition tryFinally : TryNode :=
  {| block := tryBlock; handler := None; finalizer := Some finallyBlock |}.

(** Children print as a text naming them. *)
Definition showChild (n : SubNode) : Doc :=
  match sref n with
  | 1 => DString "{ risky(); }"
  | 2 => DString "e"
  | 3 => DString "{ handle(e); }"
  | _ => DString "{ cleanup(); }"
  end.

(** Instances of the imported comment tests for the scenarios. *)
Definition blockByType (c : Comment) : bool :=
  String.eqb (comment_type c) "CommentBlock".
Definition newlineNowhere (text : string) (index : nat) (backwards : bool)
  : bool := false.
Definition source : Options := {| originalText := "" |}.

End Examples.

Module Observe.
Import Classify.

(** ** Observations on nodes, docs and token streams *)

(** How many of the six statement classes a node falls in. *)
Definition classCount (node : Node) : nat :=
  Nat.b2n (isImportOrExport node) +
  Nat.b2n (isTopLevelDeclaration node) +
  Nat.b2n (isVariableDeclaration node) +
  Nat.b2n (isBlockStatement node) +
  Nat.b2n (isReturnLikeStatement node) +
  Nat.b2n (type_is "EmptyStatement" node).

(** Whether a doc holds a [group] command anywhere. *)
Fixpoint containsGroup (d : Doc) : bool :=
  match d with
  | DString _ => false
  | DArray parts =>
      (fix go (ds : list Doc) : bool :=
         match ds with
         | [] => false
         | d' :: ds' => containsGroup d' || go ds'
         end) parts
  | hardline => false
  | softline => false
  | indent contents => containsGroup contents
  | group _ => true
  end.

Definition isHardline (d : Doc) : bool :=
  match d with
  | hardline => true
  | _ => false
  end.

(** The parts of an array that are not the [hardline] command. *)
Definition withoutHardlines (parts : list Doc) : list Doc :=
  filter (fun d => isHardline d = false) parts.

Definition countHardlines (parts : list Doc) : nat :=
  length (filter (fun d => isHardline d = true) parts).

Definition isHardToken (t : Token) : bool :=
  match t with
  | THard => true
  | _ => false
  end.

Definition isSoftToken (t : Token) : bool :=
  match t with
  | TSoft => true
  | _ => false
  end.

(** The forced and the optional breaks of a token stream. *)
Definition hardBreaks (ts : list Token) : nat :=
  length (filter (fun t => isHardToken t = true) ts).

Definition softBreaks (ts : list Token) : nat :=
  length (filter (fun t => isSoftToken t = true) ts).

End Observe.

(** * Properties *)

Module DecideFacts.
Import Classify Decide Rules.

Lemma type_is_true t n : type_is t n = true <-> type n = t.
Proof. unfold type_is. apply String.eqb_eq. Qed.

Lemma type_is_false t n : type_is t n = false <-> type n <> t.
Proof. unfold type_is. apply String.eqb_neq. Qed.

(** Once the type of a node is known, every classifier computes. *)
Ltac classify_with H :=
  unfold isImportOrExport, isTopLevelDeclaration, isBlockStatement,
    isReturnLikeStatement, isVariableDeclaration, type_is;
  rewrite H; reflexivity.

Lemma variable_declaration_type n :
  isVariableDeclaration n = true -> type n = "VariableDeclaration".
Proof. apply type_is_true. Qed.

Lemma variable_declaration_not_import n :
  isVariableDeclaration n = true -> isImportOrExport n = false.
Proof. intros H%variable_declaration_type. classify_with H. Qed.

Lemma variable_declaration_not_top_level n :
  isVariableDeclaration n = true -> isTopLevelDeclaration n = false.
Proof. intros H%variable_declaration_type. classify_with H. Qed.

Lemma variable_declaration_not_block n :
  isVariableDeclaration n = true -> isBlockStatement n = false.
Proof. intros H%variable_declaration_type. classify_with H. Qed.

Lemma variable_declaration_not_return n :
  isVariableDeclaration n = true -> isReturnLikeStatement n = false.
Proof. intros H%variable_declaration_type. classify_with H. Qed.

Lemma return_not_variable_declaration n :
  isReturnLikeStatement n = true -> isVariableDeclaration n = false.
Proof. intros H%type_is_true. classify_with H. Qed.

Lemma return_not_paragraph n :
  isReturnLikeStatement n = true -> isParagraphStatement n = false.
Proof.
  intros H%type_is_true. unfold isParagraphStatement.
  replace (isTopLevelDeclaration n) with false by (symmetry; classify_with H).
  replace (isBlockStatement n) with false by (symmetry; classify_with H).
  unfold type_is. rewrite H. reflexivity.
Qed.

(** The eleven block-form types, one case each. *)
Ltac block_cases H :=
  unfold isBlockStatement in H;
  repeat (apply orb_true_iff in H; destruct H as [H | H]);
  apply type_is_true in H.

Lemma block_not_import n :
  isBlockStatement n = true -> isImportOrExport n = false.
Proof. intros H. block_cases H; classify_with H. Qed.

Lemma block_not_variable_declaration n :
  isBlockStatement n = true -> isVariableDeclaration n = false.
Proof. intros H. block_cases H; classify_with H. Qed.

Lemma block_is_paragraph n :
  isBlockStatement n = true -> isParagraphStatement n = true.
Proof.
  intros H. unfold isParagraphStatement. rewrite H.
  now rewrite orb_true_r.
Qed.

Lemma same_block_needs_declarations current next :
  areInSameDeclarationBlock current next = true ->
  isVariableDeclaration current = true /\ isVariableDeclaration next = true.
Proof.
  unfold areInSameDeclarationBlock.
  destruct (isVariableDeclaration current), (isVariableDeclaration next);
    simpl; auto; discriminate.
Qed.

(** [areInSameDeclarationBlock] spelled as the four conditions it tests. *)
Lemma same_block_spelled current next :
  areInSameDeclarationBlock current next =
  isVariableDeclaration current && isVariableDeclaration next &&
  negb (isDestructuringDeclaration current) &&
  negb (isDestructuringDeclaration next) &&
  String.eqb (kind current) (kind next) &&
  negb (some hasFunctionInit (declarations current)) &&
  negb (some hasFunctionInit (declarations next)).
Proof.
  unfold areInSameDeclarationBlock, getDeclarationKind.
  destruct (isVariableDeclaration current), (isVariableDeclaration next);
    simpl; try reflexivity.
  destruct (isDestructuringDeclaration current),
    (isDestructuringDeclaration next); simpl; try reflexivity.
  destruct (String.eqb (kind current) (kind next)); simpl; try reflexivity.
  destruct (some hasFunctionInit (declarations current)),
    (some hasFunctionInit (declarations next)); reflexivity.
Qed.

(** The source's function in terms of the named guards. *)
Lemma decision_by_rules current next :
  shouldEnforceBlankLineBetween current next =
  if rule1 current next then true
  else if rule2 current next then false
  else if rule3 current next then false
  else if rule4 current next then true
  else if rule5 current next then true
  else if isParagraphStatement current || isParagraphStatement next then true
  else if isReturnLikeStatement next && isParagraphStatement current then true
  else if isReturnLikeStatement next && isBlockStatement current then true
  else false.
Proof. reflexivity. Qed.

End DecideFacts.

Module DecideClaims.
Import Classify Decide Rules DecideFacts Sequence Examples.

(** C1. Two adjacent VariableDeclarations, neither destructuring, of the
    same keyword, neither with a function-valued initializer: no blank line
    is enforced. A VariableDeclaration that is not in the same declaration
    block as the statement after it, which is not return-like: a blank line
    is enforced. For [const a = 1; const b = 2; let c = 3;] the decision is
    no between [a] and [b] and yes between [b] and [c], and with no blank
    line in the source the emitter puts its only blank line before
    [let c]. *)
Theorem same_declaration_block_no_blank (current next : Node) (print : Node -> Doc) :
  (isVariableDeclaration current = true ->
   isVariableDeclaration next = true ->
   isDestructuringDeclaration current = false ->
   isDestructuringDeclaration next = false ->
   kind current = kind next ->
   some hasFunctionInit (declarations current) = false ->
   some hasFunctionInit (declarations next) = false ->
   shouldEnforceBlankLineBetween current next = false) /\
  (isVariableDeclaration current = true ->
   areInSameDeclarationBlock current next = false ->
   isReturnLikeStatement next = false ->
   shouldEnforceBlankLineBetween current next = true) /\
  shouldEnforceBlankLineBetween const_a const_b = false /\
  shouldEnforceBlankLineBetween const_b let_c = true /\
  printStatementSequence print (fun _ => false) [const_a; const_b; let_c] =
    [print const_a; hardline; print const_b; hardline; hardline; print let_c].
Proof.
  split; [| split; [| repeat split]].
  - intros Hc Hn Hdc Hdn Hk Hfc Hfn.
    assert (Hsame : areInSameDeclarationBlock current next = true).
    { rewrite same_block_spelled, Hc, Hn, Hdc, Hdn, Hfc, Hfn, Hk.
      simpl. now rewrite String.eqb_refl. }
    rewrite decision_by_rules. unfold rule1, rule2, rule3.
    rewrite (variable_declaration_not_import _ Hc), Hsame. reflexivity.
  - intros Hc Hsame Hret.
    rewrite decision_by_rules. unfold rule1, rule2, rule3, rule4.
    rewrite (variable_declaration_not_import _ Hc), Hsame, Hc, Hret.
    reflexivity.
Qed.

Lemma same_declaration_block_no_blank_witness :
  shouldEnforceBlankLineBetween const_a const_b = false /\
  shouldEnforceBlankLineBetween const_b let_c = true.
Proof.
  split.
  - apply (proj1 (same_declaration_block_no_blank const_a const_b show));
      reflexivity.
  - apply (proj1 (proj2 (same_declaration_block_no_blank const_b let_c show)));
      reflexivity.
Defined.

(** C2. After an import/export declaration that is followed by a statement
    that is none, a blank line is enforced; between two import/export
    declarations none is, whatever else the two nodes carry (declarators
    with function-valued initializers included). *)
Theorem import_export_rules (current next : Node) :
  (isImportOrExport current = true ->
   isImportOrExport next = false ->
   shouldEnforceBlankLineBetween current next = true) /\
  (isImportOrExport current = true ->
   isImportOrExport next = true ->
   shouldEnforceBlankLineBetween current next = false).
Proof.
  split; intros Hc Hn; rewrite decision_by_rules; unfold rule1, rule2;
    rewrite Hc, Hn; reflexivity.
Qed.

Lemma import_export_rules_witness :
  shouldEnforceBlankLineBetween
    (statement 1 "ImportDeclaration") const_a = true /\
  shouldEnforceBlankLineBetween
    (statement 1 "ImportDeclaration")
    {| ref := 2; type := "ExportNamedDeclaration"; kind := "const";
       declarations := [simpleDeclarator "ArrowFunctionExpression"] |} = false.
Proof.
  split.
  - apply (proj1 (import_export_rules _ _)); reflexivity.
  - apply (proj2 (import_export_rules _ _)); reflexivity.
Defined.

(** C3. Before a VariableDeclaration that follows a statement that is
    neither a VariableDeclaration nor an import/export declaration, a blank
    line is enforced. *)
Theorem blank_before_declaration_block (current next : Node) :
  isVariableDeclaration next = true ->
  isVariableDeclaration current = false ->
  isImportOrExport current = false ->
  shouldEnforceBlankLineBetween current next = true.
Proof.
  intros Hn Hc Hie.
  assert (Hsame : areInSameDeclarationBlock current next = false).
  { rewrite same_block_spelled, Hc. reflexivity. }
  rewrite decision_by_rules. unfold rule1, rule2, rule3, rule4, rule5.
  rewrite Hie, Hsame, Hc, Hn. reflexivity.
Qed.

Lemma blank_before_declaration_block_witness :
  shouldEnforceBlankLineBetween call_a const_b = true.
Proof. apply blank_before_declaration_block; reflexivity. Defined.

(** C4. A pair that none of rules 1 to 5 resolves and in which a statement
    is a paragraph statement (a top-level declaration, a block-form
    statement, or a VariableDeclaration with a function-valued initializer)
    gets a blank line. So does every block-form statement followed by a
    return, as in [if (x) { f(); } return y;]. *)
Theorem paragraph_rule (current next : Node) :
  (resolvedByRules1to5 current next = false ->
   isTopLevelDeclaration current || isBlockStatement current ||
     (isVariableDeclaration current &&
      some hasFunctionInit (declarations current)) ||
   (isTopLevelDeclaration next || isBlockStatement next ||
     (isVariableDeclaration next &&
      some hasFunctionInit (declarations next))) = true ->
   shouldEnforceBlankLineBetween current next = true) /\
  (isBlockStatement current = true ->
   isReturnLikeStatement next = true ->
   resolvedByRules1to5 current next = false /\
   shouldEnforceBlankLineBetween current next = true).
Proof.
  split.
  - unfold resolvedByRules1to5. intros Hres Hpar.
    repeat (apply orb_false_iff in Hres; destruct Hres as [Hres ?]).
    rewrite decision_by_rules.
    replace (rule1 current next) with false by congruence.
    replace (rule2 current next) with false by congruence.
    replace (rule3 current next) with false by congruence.
    replace (rule4 current next) with false by congruence.
    replace (rule5 current next) with false by congruence.
    unfold isParagraphStatement.
    fold (isVariableDeclaration current) (isVariableDeclaration next).
    rewrite Hpar. reflexivity.
  - intros Hb Hr.
    assert (Hres : resolvedByRules1to5 current next = false).
    { unfold resolvedByRules1to5, rule1, rule2, rule3, rule4, rule5.
      rewrite same_block_spelled.
      rewrite (block_not_import _ Hb), (block_not_variable_declaration _ Hb),
        (return_not_variable_declaration _ Hr).
      reflexivity. }
    split; [exact Hres |].
    unfold resolvedByRules1to5 in Hres.
    repeat (apply orb_false_iff in Hres; destruct Hres as [Hres ?]).
    rewrite decision_by_rules.
    replace (rule1 current next) with false by congruence.
    replace (rule2 current next) with false by congruence.
    replace (rule3 current next) with false by congruence.
    replace (rule4 current next) with false by congruence.
    replace (rule5 current next) with false by congruence.
    rewrite (block_is_paragraph _ Hb). reflexivity.
Qed.

Lemma paragraph_rule_witness :
  shouldEnforceBlankLineBetween if_x return_y = true /\
  shouldEnforceBlankLineBetween call_a (statement 2 "FunctionDeclaration")
    = true.
Proof.
  split.
  - apply (proj2 (paragraph_rule if_x return_y)); reflexivity.
  - apply (proj1 (paragraph_rule call_a (statement 2 "FunctionDeclaration")));
      reflexivity.
Defined.

(** C5. The two trailing branches of [shouldEnforceBlankLineBetween] are
    dead: the function agrees everywhere with rules 1 to 6 alone, and no
    pair that reaches the trailing branches satisfies either of their
    conditions. *)
Theorem trailing_branches_dead (current next : Node) :
  shouldEnforceBlankLineBetween current next = requiresBlank current next /\
  negb (resolvedByRules1to5 current next) &&
  negb (isParagraphStatement current || isParagraphStatement next) &&
  ((isReturnLikeStatement next && isParagraphStatement current) ||
   (isReturnLikeStatement next && isBlockStatement current)) = false.
Proof.
  assert (Hblock : isParagraphStatement current = false ->
                   isBlockStatement current = false).
  { intros Hp. destruct (isBlockStatement current) eqn:Hb; [| reflexivity].
    rewrite (block_is_paragraph _ Hb) in Hp. discriminate. }
  split.
  - unfold shouldEnforceBlankLineBetween, requiresBlank.
    destruct (isParagraphStatement current) eqn:Hp.
    + simpl. reflexivity.
    + rewrite (Hblock eq_refl). simpl.
      now rewrite !andb_false_r.
  - destruct (isParagraphStatement current) eqn:Hp.
    + simpl. now rewrite andb_false_r.
    + rewrite (Hblock eq_refl). now rewrite !andb_false_r.
Qed.

(** C10. Only a ReturnStatement is return-like. After a VariableDeclaration
    that neither destructures nor holds a function-valued initializer, a
    blank line is enforced before a ThrowStatement, a BreakStatement or a
    ContinueStatement, and none before a ReturnStatement. *)
Theorem only_return_is_return_like (current next : Node) :
  (isReturnLikeStatement next = true <-> type next = "ReturnStatement") /\
  (isVariableDeclaration current = true ->
   isDestructuringDeclaration current = false ->
   some hasFunctionInit (declarations current) = false ->
   (type next = "ThrowStatement" \/ type next = "BreakStatement" \/
    type next = "ContinueStatement" ->
    shouldEnforceBlankLineBetween current next = true) /\
   (type next = "ReturnStatement" ->
    shouldEnforceBlankLineBetween current next = false)).
Proof.
  split; [apply type_is_true |].
  intros Hc Hd Hf. split.
  - intros Ht.
    assert (Hn : isVariableDeclaration next = false /\
                 isReturnLikeStatement next = false).
    { destruct Ht as [Ht | [Ht | Ht]]; split; classify_with Ht. }
    destruct Hn as [Hn Hr].
    rewrite decision_by_rules. unfold rule1, rule2, rule3, rule4.
    rewrite same_block_spelled, (variable_declaration_not_import _ Hc),
      Hc, Hn, Hr.
    reflexivity.
  - intros Ht. apply type_is_true in Ht. fold (isReturnLikeStatement next) in Ht.
    rewrite decision_by_rules. unfold rule1, rule2, rule3, rule4, rule5.
    rewrite same_block_spelled, (variable_declaration_not_import _ Hc),
      (return_not_variable_declaration _ Ht), (return_not_paragraph _ Ht), Hc, Ht.
    unfold isParagraphStatement.
    rewrite (variable_declaration_not_top_level _ Hc),
      (variable_declaration_not_block _ Hc), Hf.
    simpl. now rewrite !andb_false_r.
Qed.

Lemma only_return_is_return_like_witness :
  shouldEnforceBlankLineBetween const_a (statement 2 "ThrowStatement") = true /\
  shouldEnforceBlankLineBetween const_a (statement 2 "BreakStatement") = true /\
  shouldEnforceBlankLineBetween const_a (statement 2 "ContinueStatement") = true /\
  shouldEnforceBlankLineBetween const_a return_y = false.
Proof.
  pose proof (fun next =>
    proj2 (only_return_is_return_like const_a next)
      eq_refl eq_refl eq_refl) as H.
  split; [| split; [| split]].
  - apply (proj1 (H (statement 2 "ThrowStatement"))). left. reflexivity.
  - apply (proj1 (H (statement 2 "BreakStatement"))).
    right. left. reflexivity.
  - apply (proj1 (H (statement 2 "ContinueStatement"))).
    right. right. reflexivity.
  - apply (proj2 (H return_y)). reflexivity.
Defined.

End DecideClaims.

Module SequenceFacts.
Import Classify Decide Sequence.

Section Loop.

Variable print : Node -> Doc.
Variable isNextLineEmpty : Node -> bool.

Local Abbreviation step := (callback print isNextLineEmpty).
Local Abbreviation emit := (emit print isNextLineEmpty).
Local Abbreviation separator := (separator isNextLineEmpty).

Lemma withoutEmpty_skip c rest :
  type_is "EmptyStatement" c = true ->
  withoutEmpty (c :: rest) = withoutEmpty rest.
Proof.
  intros H%DecideFacts.type_is_true. unfold withoutEmpty.
  rewrite filter_cons_False; [reflexivity | intros Hne; exact (Hne H)].
Qed.

Lemma withoutEmpty_keep c rest :
  type_is "EmptyStatement" c = false ->
  withoutEmpty (c :: rest) = c :: withoutEmpty rest.
Proof.
  intros H%DecideFacts.type_is_false. unfold withoutEmpty.
  now rewrite filter_cons_True.
Qed.

Lemma withoutEmpty_idemp body :
  withoutEmpty (withoutEmpty body) = withoutEmpty body.
Proof.
  induction body as [| c rest IH]; [reflexivity |].
  destruct (type_is "EmptyStatement" c) eqn:Hc.
  - now rewrite (withoutEmpty_skip _ _ Hc).
  - rewrite (withoutEmpty_keep _ _ Hc), (withoutEmpty_keep _ _ Hc).
    now rewrite IH.
Qed.

(** The callback leaves the state alone on an empty statement, so the loop
    over the body is the loop over the filtered body. *)
Lemma loop_skips_empty statements lastStatement rest st :
  fold_left (step statements lastStatement) rest st =
  fold_left (step statements lastStatement) (withoutEmpty rest) st.
Proof.
  revert st. induction rest as [| c rest IH]; intros st; [reflexivity |].
  destruct (type_is "EmptyStatement" c) eqn:Hc.
  - rewrite (withoutEmpty_skip _ _ Hc). simpl. rewrite <- IH.
    unfold callback at 2. destruct st. now rewrite Hc.
  - rewrite (withoutEmpty_keep _ _ Hc). simpl. apply IH.
Qed.

Lemma printStatementSequence_filtered body :
  printStatementSequence print isNextLineEmpty body =
  printStatementSequence print isNextLineEmpty (withoutEmpty body).
Proof.
  unfold printStatementSequence.
  fold (withoutEmpty body). fold (withoutEmpty (withoutEmpty body)).
  rewrite withoutEmpty_idemp. apply (f_equal fst), loop_skips_empty.
Qed.

(** A statement with statements after it is not the last one, when no two
    statements are the same object. *)
Lemma differs_from_last pre c n post :
  NoDup (ref <$> pre ++ c :: n :: post) ->
  differs_from c (last (pre ++ c :: n :: post)) = true.
Proof.
  intros Hnd. rewrite last_app_cons, last_cons.
  rewrite fmap_app, fmap_cons in Hnd.
  apply NoDup_app in Hnd as (_ & _ & Hnd).
  apply NoDup_cons in Hnd as [Hnotin _].
  destruct (last (n :: post)) as [l |] eqn:Hl.
  - simpl. apply negb_true_iff, Nat.eqb_neq. intros Heq.
    apply Hnotin. rewrite Heq.
    apply (list_elem_of_fmap_2 ref), last_Some_elem_of, Hl.
  - rewrite last_cons in Hl. destruct (last post); discriminate.
Qed.

Lemma same_as_last pre c :
  differs_from c (last (pre ++ [c])) = false.
Proof.
  rewrite last_snoc. simpl. now rewrite Nat.eqb_refl.
Qed.

(** The loop from the middle of the body: [pre] has been printed into
    [parts], [rest] is to come. *)
Lemma loop_invariant statements rest : forall pre parts,
  statements = pre ++ withoutEmpty rest ->
  NoDup (ref <$> statements) ->
  fst (fold_left (step statements (last statements)) rest
         (parts, length pre)) =
  parts ++ emit (withoutEmpty rest).
Proof.
  induction rest as [| c rest IH]; intros pre parts Hst Hnd.
  - simpl. now rewrite app_nil_r.
  - destruct (type_is "EmptyStatement" c) eqn:Hc.
    + rewrite (withoutEmpty_skip _ _ Hc) in *. simpl.
      rewrite Hc. now apply IH.
    + rewrite (withoutEmpty_keep _ _ Hc) in *. simpl.
      rewrite Hc.
      assert (Hpre : statements = (pre ++ [c]) ++ withoutEmpty rest)
        by now rewrite <- app_assoc.
      assert (Hlen : length pre + 1 = length (pre ++ [c]))
        by (rewrite length_app; reflexivity).
      destruct (withoutEmpty rest) as [| n post] eqn:Hpost.
      * assert (Hlast : differs_from c (last statements) = false)
          by (rewrite Hst; apply same_as_last).
        rewrite Hlast, Hlen.
        rewrite (IH _ _ Hpre Hnd). simpl. now rewrite app_nil_r.
      * assert (Hdiff : differs_from c (last statements) = true)
          by (rewrite Hst; apply differs_from_last; now rewrite <- Hst).
        assert (Hnext : statements !! (length pre + 1) = Some n).
        { rewrite Hpre, Hlen. apply list_lookup_middle. reflexivity. }
        rewrite Hdiff, Hnext, Hlen.
        change (emit (c :: n :: post))
          with (print c :: separator c n ++ emit (n :: post)).
        unfold Sequence.separator.
        destruct (isNextLineEmpty c || shouldEnforceBlankLineBetween c n);
          rewrite (IH _ _ Hpre Hnd); simpl; now rewrite <- !app_assoc.
Qed.

(** The whole loop, from the empty [parts] and index 0. *)
Lemma printStatementSequence_emit body :
  NoDup (ref <$> withoutEmpty body) ->
  printStatementSequence print isNextLineEmpty body =
  emit (withoutEmpty body).
Proof.
  intros Hnd. unfold printStatementSequence. fold (withoutEmpty body).
  apply (loop_invariant (withoutEmpty body) body [] []);
    [reflexivity | exact Hnd].
Qed.

Lemma emit_cons_cons x y l :
  emit (x :: y :: l) = print x :: separator x y ++ emit (y :: l).
Proof. reflexivity. Qed.

Lemma emit_split pre a b post :
  emit (pre ++ a :: b :: post) =
  emit (pre ++ [a]) ++ separator a b ++ emit (b :: post).
Proof.
  induction pre as [| x pre IH]; [reflexivity |].
  destruct pre as [| y pre].
  - change (emit (x :: a :: b :: post) =
            emit [x; a] ++ separator a b ++ emit (b :: post)).
    rewrite !emit_cons_cons. simpl. now rewrite <- !app_assoc.
  - change (emit (x :: y :: pre ++ a :: b :: post) =
            emit (x :: y :: pre ++ [a]) ++ separator a b ++ emit (b :: post)).
    rewrite (emit_cons_cons x y (pre ++ a :: b :: post)).
    rewrite (emit_cons_cons x y (pre ++ [a])).
    change (y :: pre ++ a :: b :: post) with ((y :: pre) ++ a :: b :: post).
    rewrite IH. simpl. now rewrite <- !app_assoc.
Qed.

Lemma emit_ends_with_last pre a :
  exists before, emit (pre ++ [a]) = before ++ [print a].
Proof.
  induction pre as [| x pre [before IH]].
  - now exists [].
  - destruct pre as [| y pre].
    + exists (print x :: separator x a). reflexivity.
    + exists (print x :: separator x y ++ before).
      change (emit (x :: y :: pre ++ [a]) =
              (print x :: separator x y ++ before) ++ [print a]).
      rewrite emit_cons_cons.
      change (y :: pre ++ [a]) with ((y :: pre) ++ [a]).
      rewrite IH. simpl. now rewrite <- app_assoc.
Qed.

End Loop.

(** Why the statements must be distinct objects: a node that is also the
    last statement is taken for the last one wherever it stands, and gets
    no separator. A parsed tree never shares a node between two places. *)
Remark shared_node_taken_for_last :
  printStatementSequence Examples.show (fun _ => false)
    [Examples.call_a; Examples.call_b; Examples.call_a] =
  [Examples.show Examples.call_a; Examples.show Examples.call_b; hardline;
   Examples.show Examples.call_a].
Proof. reflexivity. Qed.

End SequenceFacts.

Module SequenceClaims.
Import Classify Decide Sequence SequenceFacts Examples.

(** C6. On a body whose non-empty statements are distinct nodes,
    [printStatementSequence] produces the filtered statements in order,
    each but the last followed by exactly one [hardline] and by exactly one
    more if and only if the source has a blank line after it or
    [shouldEnforceBlankLineBetween] holds for it and the next filtered
    statement; the output ends with the last filtered statement, with no
    separator after it. *)
Theorem emitter_separators
    (print : Node -> Doc) (isNextLineEmpty : Node -> bool)
    (body : list Node) :
  NoDup (ref <$> withoutEmpty body) ->
  printStatementSequence print isNextLineEmpty body =
    emit print isNextLineEmpty (withoutEmpty body) /\
  (forall pre a b post,
     withoutEmpty body = pre ++ a :: b :: post ->
     printStatementSequence print isNextLineEmpty body =
       emit print isNextLineEmpty (pre ++ [a]) ++
       hardline ::
       (if isNextLineEmpty a || shouldEnforceBlankLineBetween a b
        then [hardline] else []) ++
       print b :: match post with
                  | [] => []
                  | c :: _ =>
                      separator isNextLineEmpty b c ++
                      emit print isNextLineEmpty post
                  end) /\
  (forall pre s,
     withoutEmpty body = pre ++ [s] ->
     exists before,
       printStatementSequence print isNextLineEmpty body =
       before ++ [print s]).
Proof.
  intros Hnd.
  pose proof (printStatementSequence_emit print isNextLineEmpty body Hnd)
    as Heq.
  split; [exact Heq |]. split.
  - intros pre a b post Hsplit. rewrite Heq, Hsplit, emit_split.
    destruct post; reflexivity.
  - intros pre s Hsplit. rewrite Heq, Hsplit.
    apply emit_ends_with_last.
Qed.

Lemma emitter_separators_witness :
  printStatementSequence show (gapAfter 1)
    [call_a; empty; call_b; statement 4 "ReturnStatement"] =
  [show call_a; hardline; hardline; show call_b; hardline;
   show (statement 4 "ReturnStatement")].
Proof.
  assert (Hnd : NoDup (ref <$> withoutEmpty
            [call_a; empty; call_b; statement 4 "ReturnStatement"])).
  { apply (bool_decide_unpack _). vm_compute. exact I. }
  rewrite (proj1 (emitter_separators show (gapAfter 1) _ Hnd)).
  reflexivity.
Defined.

(** C7, as the code has it. Empty statements are transparent: every body
    prints as the body without its empty statements does, so [A; Empty; B]
    prints as [A; B]; and the source gap between [A] and [B] is the one
    reported for [A], the nearest non-empty statement before [B]. The empty
    statement is never asked. *)
Theorem empty_statements_transparent
    (print : Node -> Doc) (isNextLineEmpty : Node -> bool) :
  (forall body,
     printStatementSequence print isNextLineEmpty body =
     printStatementSequence print isNextLineEmpty (withoutEmpty body)) /\
  (forall A E B,
     type E = "EmptyStatement" ->
     type A <> "EmptyStatement" ->
     type B <> "EmptyStatement" ->
     printStatementSequence print isNextLineEmpty [A; E; B] =
     printStatementSequence print isNextLineEmpty [A; B] /\
     (ref A <> ref B ->
      printStatementSequence print isNextLineEmpty [A; E; B] =
      print A :: hardline ::
      (if isNextLineEmpty A || shouldEnforceBlankLineBetween A B
       then [hardline] else []) ++ [print B])).
Proof.
  split; [apply printStatementSequence_filtered |].
  intros A E B HE HA HB.
  assert (Hfilter : withoutEmpty [A; E; B] = [A; B]).
  { apply DecideFacts.type_is_true in HE.
    apply DecideFacts.type_is_false in HA, HB.
    rewrite (withoutEmpty_keep _ _ HA), (withoutEmpty_skip _ _ HE),
      (withoutEmpty_keep _ _ HB).
    reflexivity. }
  split.
  - rewrite printStatementSequence_filtered, Hfilter. reflexivity.
  - intros Hne.
    assert (Hnd : NoDup (ref <$> withoutEmpty [A; E; B])).
    { rewrite Hfilter. apply NoDup_cons. split.
      - now rewrite list_elem_of_singleton.
      - apply NoDup_singleton. }
    rewrite (printStatementSequence_emit print isNextLineEmpty _ Hnd), Hfilter.
    reflexivity.
Qed.

Lemma empty_statements_transparent_witness :
  printStatementSequence show (gapAfter 1) [call_a; empty; call_b] =
  [show call_a; hardline; hardline; show call_b].
Proof.
  rewrite (proj2 (proj2 (empty_statements_transparent show (gapAfter 1))
             call_a empty call_b eq_refl ltac:(discriminate)
             ltac:(discriminate)) ltac:(discriminate)).
  reflexivity.
Defined.

(** C7 as stated fails on [a(); ; b();] when the source has its only blank
    line after the empty statement: the last statement before [b();] in the
    unfiltered order reports a gap, no rule enforces a blank line, and the
    output has a single line break between the two calls, where a lookup at
    the unfiltered predecessor yields two. *)
Lemma unfiltered_gap_lookup_fails :
  last [call_a; empty] = Some empty /\
  gapAfter 2 empty = true /\
  gapAfter 2 call_a = false /\
  shouldEnforceBlankLineBetween call_a call_b = false /\
  printStatementSequence show (gapAfter 2) [call_a; empty; call_b] =
    [show call_a; hardline; show call_b] /\
  emitUnfilteredGap show (gapAfter 2) [call_a; empty; call_b] =
    [show call_a; hardline; hardline; show call_b] /\
  printStatementSequence show (gapAfter 2) [call_a; empty; call_b] <>
  emitUnfilteredGap show (gapAfter 2) [call_a; empty; call_b].
Proof.
  repeat split; try reflexivity. discriminate.
Qed.

End SequenceClaims.

Module ClauseClaims.
Import TryStatement Observe Examples.

Section Clauses.

Variable print : SubNode -> Doc.
Variable isBlockComment : Comment -> bool.
Variable hasNewline : string -> nat -> bool -> bool.
Variable options : Options.

Local Abbreviation catchClause :=
  (printCatchClause print isBlockComment hasNewline options).
Local Abbreviation tryStatement :=
  (printTryStatement print isBlockComment hasNewline options).
Local Abbreviation breaks :=
  (attachedCommentBreaks isBlockComment hasNewline options).

(** The source's short-circuit test and the test as worded agree. *)
Lemma commentForcesBreak_spelled comment :
  commentForcesBreak isBlockComment hasNewline options comment =
  breaks comment.
Proof.
  unfold commentForcesBreak, attachedCommentBreaks.
  destruct (isBlockComment comment); reflexivity.
Qed.

Lemma hasComment_spelled p :
  hasComment p (commentForcesBreak isBlockComment hasNewline options) =
  some breaks (comments p).
Proof.
  unfold hasComment, some. induction (comments p) as [| c l IH];
    [reflexivity |].
  simpl. now rewrite commentForcesBreak_spelled, IH.
Qed.

Lemma catch_starts_on_new_line clause :
  exists rest,
    tokens (catchClause clause) = THard :: TText "catch " :: rest.
Proof.
  unfold printCatchClause. destruct (param clause) as [p |].
  - destruct (hasComment p _); eexists; simpl; reflexivity.
  - eexists; simpl; reflexivity.
Qed.

(** C8. In the doc of a try statement, [catch] (of a clause with or
    without a bound parameter) comes right after a forced line break, and
    so does [finally], with a catch clause before it or without: between
    the doc of the block that precedes the keyword and the keyword there is
    a [hardline]. *)
Theorem clause_keywords_on_new_line (node : TryNode) :
  (forall clause, exists rest,
     tokens (catchClause clause) = THard :: TText "catch " :: rest) /\
  (forall h, handler node = Some h ->
     exists rest,
       tokens (tryStatement node) =
       TText "try " :: tokens (print (block node)) ++
       TText " " :: THard :: TText "catch " :: rest) /\
  (forall f, finalizer node = Some f ->
     tokens (tryStatement node) =
     (TText "try " :: tokens (print (block node)) ++
      match handler node with
      | Some h => TText " " :: tokens (catchClause h)
      | None => []
      end) ++
     THard :: TText "finally " :: tokens (print f)).
Proof.
  split; [exact catch_starts_on_new_line |]. split.
  - intros h Hh. destruct (catch_starts_on_new_line h) as [rest Hrest].
    exists (rest ++ tokens (match finalizer node with
                            | Some f =>
                                DArray [hardline; DString "finally "; print f]
                            | None => DString ""
                            end)).
    unfold printTryStatement. rewrite Hh. simpl. rewrite Hrest.
    rewrite !app_nil_r. simpl. reflexivity.
  - intros f Hf. unfold printTryStatement. rewrite Hf.
    destruct (handler node) as [h |]; simpl;
      rewrite ?app_nil_r, <- ?app_assoc; reflexivity.
Qed.

(** C9, as the code has it. A catch clause with a bound parameter: when
    some comment attached to the parameter is not block-style, or is a
    block-style leading comment with a newline after its end, or a
    block-style trailing comment with a newline before its start, the
    parameter is printed between the parentheses indented, with a
    [softline] before it and a [softline] before the closing parenthesis,
    all four placed directly in an array: the clause wraps them in no
    [group], and the only groups of its doc are those of the docs of the
    parameter and of the body. Otherwise, and so when no comment is
    attached, the parameter is printed between the parentheses with nothing
    added. *)
Theorem catch_parameter_rendering (clause : CatchClause) (p : SubNode) :
  param clause = Some p ->
  (some breaks (comments p) = true ->
   catchClause clause =
     DArray [hardline; DString "catch ";
             DArray [DString "("; indent (DArray [softline; print p]);
                     softline; DString ") "];
             print (body clause)] /\
   tokens (catchClause clause) =
     THard :: TText "catch " :: TText "(" :: TIndent :: TSoft ::
     tokens (print p) ++
     TDedent :: TSoft :: TText ") " :: tokens (print (body clause))) /\
  (some breaks (comments p) = false ->
   catchClause clause =
     DArray [hardline; DString "catch ";
             DArray [DString "("; print p; DString ") "];
             print (body clause)] /\
   tokens (catchClause clause) =
     THard :: TText "catch " :: TText "(" ::
     tokens (print p) ++ TText ") " :: tokens (print (body clause))) /\
  (comments p = [] -> some breaks (comments p) = false) /\
  containsGroup (catchClause clause) =
    containsGroup (print p) || containsGroup (print (body clause)).
Proof.
  intros Hp. unfold printCatchClause. rewrite Hp, hasComment_spelled.
  split; [| split; [| split]].
  - intros ->. split; [reflexivity |].
    simpl. rewrite !app_nil_r, <- !app_assoc. reflexivity.
  - intros ->. split; [reflexivity |].
    simpl. rewrite !app_nil_r, <- !app_assoc. reflexivity.
  - intros ->. reflexivity.
  - destruct (some breaks (comments p)); simpl;
      now rewrite !orb_false_r.
Qed.

End Clauses.

Lemma clause_keywords_on_new_line_witness :
  tokens (printTryStatement showChild blockByType newlineNowhere source
            tryCatchFinally) =
    [TText "try "; TText "{ risky(); }"; TText " "; THard; TText "catch ";
     TText "("; TText "e"; TText ") "; TText "{ handle(e); }";
     THard; TText "finally "; TText "{ cleanup(); }"] /\
  tokens (printTryStatement showChild blockByType newlineNowhere source
            tryFinally) =
    [TText "try "; TText "{ risky(); }";
     THard; TText "finally "; TText "{ cleanup(); }"] /\
  (exists rest,
     tokens (printTryStatement showChild blockByType newlineNowhere source
               tryCatchFinally) =
     TText "try " :: tokens (showChild tryBlock) ++
     TText " " :: THard :: TText "catch " :: rest).
Proof.
  split; [| split].
  - rewrite (proj2 (proj2 (clause_keywords_on_new_line showChild blockByType
               newlineNowhere source tryCatchFinally)) finallyBlock eq_refl).
    reflexivity.
  - rewrite (proj2 (proj2 (clause_keywords_on_new_line showChild blockByType
               newlineNowhere source tryFinally)) finallyBlock eq_refl).
    reflexivity.
  - exact (proj1 (proj2 (clause_keywords_on_new_line showChild blockByType
             newlineNowhere source tryCatchFinally)) catchBare eq_refl).
Defined.

Lemma catch_parameter_rendering_witness :
  tokens (printCatchClause showChild blockByType newlineNowhere source
            catchCommented) =
    [THard; TText "catch "; TText "("; TIndent; TSoft; TText "e"; TDedent;
     TSoft; TText ") "; TText "{ handle(e); }"] /\
  tokens (printCatchClause showChild blockByType newlineNowhere source
            catchBare) =
    [THard; TText "catch "; TText "("; TText "e"; TText ") ";
     TText "{ handle(e); }"] /\
  some (attachedCommentBreaks blockByType newlineNowhere source)
    (comments bareParam) = false.
Proof.
  split; [| split].
  - rewrite (proj2 (proj1 (catch_parameter_rendering showChild blockByType
               newlineNowhere source catchCommented commentedParam eq_refl)
               eq_refl)).
    reflexivity.
  - rewrite (proj2 (proj1 (proj2 (catch_parameter_rendering showChild
               blockByType newlineNowhere source catchBare bareParam eq_refl))
               eq_refl)).
    reflexivity.
  - exact (proj1 (proj2 (proj2 (catch_parameter_rendering showChild
             blockByType newlineNowhere source catchBare bareParam eq_refl)))
             eq_refl).
Defined.

(** C9 as stated fails on [catch (e // why)], a parameter with a line
    comment after it: the comment test holds, and the doc of the clause
    holds no [group] at all, so it is not the doc with the parenthesised
    parameter held in a group. *)
Lemma catch_parameter_not_grouped :
  some (attachedCommentBreaks blockByType newlineNowhere source)
    (comments commentedParam) = true /\
  containsGroup (printCatchClause showChild blockByType newlineNowhere source
                   catchCommented) = false /\
  printCatchClause showChild blockByType newlineNowhere source
    catchCommented <>
  DArray [hardline; DString "catch ";
          groupedParameter (showChild commentedParam);
          showChild handlerBody].
Proof.
  split; [reflexivity |]. split; [reflexivity |]. discriminate.
Qed.

End ClauseClaims.

Module DecideMore.
Import Classify Decide Rules DecideFacts Observe.

(** ** The decision, class by class *)

(** A classifier that holds pins the node type to one entry of its table. *)
Ltac table_cases H :=
  unfold isImportOrExport, isTopLevelDeclaration, isBlockStatement,
    isReturnLikeStatement, isVariableDeclaration in H;
  repeat (apply orb_true_iff in H; destruct H as [H | H]);
  apply type_is_true in H.

Ltac paragraph_with H :=
  unfold isParagraphStatement, isImportOrExport, isTopLevelDeclaration,
    isBlockStatement, isReturnLikeStatement, isVariableDeclaration, type_is;
  rewrite H; reflexivity.

Lemma import_not_variable_declaration n :
  isImportOrExport n = true -> isVariableDeclaration n = false.
Proof. intros H. table_cases H; classify_with H. Qed.

Lemma import_not_paragraph n :
  isImportOrExport n = true -> isParagraphStatement n = false.
Proof. intros H. table_cases H; paragraph_with H. Qed.

Lemma top_level_not_import n :
  isTopLevelDeclaration n = true -> isImportOrExport n = false.
Proof. intros H. table_cases H; classify_with H. Qed.

Lemma top_level_not_variable_declaration n :
  isTopLevelDeclaration n = true -> isVariableDeclaration n = false.
Proof. intros H. table_cases H; classify_with H. Qed.

Lemma top_level_not_return n :
  isTopLevelDeclaration n = true -> isReturnLikeStatement n = false.
Proof. intros H. table_cases H; classify_with H. Qed.

Lemma block_not_return n :
  isBlockStatement n = true -> isReturnLikeStatement n = false.
Proof. intros H. table_cases H; classify_with H. Qed.

Lemma not_paragraph_not_block n :
  isParagraphStatement n = false -> isBlockStatement n = false.
Proof.
  intros Hp. destruct (isBlockStatement n) eqn:Hb; [| reflexivity].
  rewrite (block_is_paragraph _ Hb) in Hp. discriminate.
Qed.

(** On a VariableDeclaration, being a paragraph is holding a function. *)
Lemma paragraph_of_declaration n :
  isVariableDeclaration n = true ->
  isParagraphStatement n = some hasFunctionInit (declarations n).
Proof.
  intros H. unfold isParagraphStatement.
  rewrite (variable_declaration_not_top_level _ H),
    (variable_declaration_not_block _ H).
  fold (isVariableDeclaration n). now rewrite H.
Qed.

Lemma paragraph_not_import n :
  isParagraphStatement n = true -> isImportOrExport n = false.
Proof.
  intros Hp. destruct (isImportOrExport n) eqn:Hi; [| reflexivity].
  rewrite (import_not_paragraph _ Hi) in Hp. discriminate.
Qed.

Lemma paragraph_not_return n :
  isParagraphStatement n = true -> isReturnLikeStatement n = false.
Proof.
  intros Hp. destruct (isReturnLikeStatement n) eqn:Hr; [| reflexivity].
  rewrite (return_not_paragraph _ Hr) in Hp. discriminate.
Qed.

(** A paragraph statement never continues a declaration block. *)
Lemma paragraph_not_in_block current next :
  isParagraphStatement current = true \/ isParagraphStatement next = true ->
  areInSameDeclarationBlock current next = false.
Proof.
  intros Hp. destruct (areInSameDeclarationBlock current next) eqn:Hs;
    [| reflexivity].
  destruct (same_block_needs_declarations _ _ Hs) as [Hc Hn].
  rewrite same_block_spelled in Hs.
  rewrite (paragraph_of_declaration _ Hc),
    (paragraph_of_declaration _ Hn) in Hp.
  destruct Hp as [Hp | Hp]; rewrite Hp in Hs; simpl in Hs;
    rewrite ?andb_false_r in Hs; discriminate.
Qed.

(** The nine branches folded into one table, by the class of [current]. *)
Lemma decision_table current next :
  shouldEnforceBlankLineBetween current next =
  if isImportOrExport current then negb (isImportOrExport next)
  else if isVariableDeclaration current then
    negb (areInSameDeclarationBlock current next) &&
    (negb (isReturnLikeStatement next) ||
     some hasFunctionInit (declarations current))
  else
    isVariableDeclaration next ||
    isParagraphStatement current || isParagraphStatement next.
Proof.
  rewrite decision_by_rules. unfold rule1, rule2, rule3, rule4, rule5.
  destruct (isImportOrExport current) eqn:Hi.
  { destruct (isImportOrExport next); reflexivity. }
  simpl. destruct (isVariableDeclaration current) eqn:Hc.
  - destruct (areInSameDeclarationBlock current next); [reflexivity |].
    simpl. destruct (isReturnLikeStatement next) eqn:Hr; [| reflexivity].
    simpl. rewrite (return_not_paragraph _ Hr), (paragraph_of_declaration _ Hc),
      (variable_declaration_not_block _ Hc), andb_false_r, orb_false_r.
    destruct (some hasFunctionInit (declarations current)); reflexivity.
  - assert (Hs : areInSameDeclarationBlock current next = false)
      by (rewrite same_block_spelled, Hc; reflexivity).
    rewrite Hs. simpl.
    destruct (isVariableDeclaration next); [reflexivity |]. simpl.
    destruct (isParagraphStatement current) eqn:Hp; [reflexivity |].
    rewrite (not_paragraph_not_block _ Hp). simpl.
    destruct (isParagraphStatement next); [reflexivity |].
    now rewrite !andb_false_r.
Qed.

End DecideMore.

Module DecideExtras.
Import Classify Decide Rules DecideFacts DecideMore Observe Examples.

(** X1. A paragraph statement is always set apart: whenever [current] or
    [next] is a paragraph statement, a blank line is enforced, whatever the
    other statement is. *)
Theorem paragraph_always_isolated (current next : Node) :
  isParagraphStatement current || isParagraphStatement next = true ->
  shouldEnforceBlankLineBetween current next = true.
Proof.
  intros Hp. rewrite decision_table.
  assert (Hs : areInSameDeclarationBlock current next = false)
    by (apply paragraph_not_in_block; now apply orb_true_iff).
  destruct (isImportOrExport current) eqn:Hi.
  - rewrite (import_not_paragraph _ Hi) in Hp. simpl in Hp.
    now rewrite (paragraph_not_import _ Hp).
  - destruct (isVariableDeclaration current) eqn:Hc.
    + rewrite Hs. simpl.
      rewrite (paragraph_of_declaration _ Hc) in Hp.
      destruct (some hasFunctionInit (declarations current));
        [now rewrite orb_true_r |].
      simpl in Hp. now rewrite (paragraph_not_return _ Hp).
    + rewrite <- orb_assoc, Hp. now rewrite orb_true_r.
Qed.

Lemma paragraph_always_isolated_witness :
  shouldEnforceBlankLineBetween
    (statement 1 "ImportDeclaration") (statement 2 "ClassDeclaration") = true /\
  shouldEnforceBlankLineBetween
    (declaration 1 "const" [simpleDeclarator "ArrowFunctionExpression"])
    return_y = true.
Proof.
  split; apply paragraph_always_isolated; reflexivity.
Defined.

(** X2. The decision depends on the class of [current] only through three
    cases: after an import/export it is whether [next] is none; after a
    VariableDeclaration it is that [next] does not continue the block and
    is no return, unless the declaration holds a function; after anything
    else it is that [next] is a VariableDeclaration or one of the two is a
    paragraph statement. *)
Theorem decision_by_class (current next : Node) :
  shouldEnforceBlankLineBetween current next =
  if isImportOrExport current then negb (isImportOrExport next)
  else if isVariableDeclaration current then
    negb (areInSameDeclarationBlock current next) &&
    (negb (isReturnLikeStatement next) ||
     some hasFunctionInit (declarations current))
  else
    isVariableDeclaration next ||
    isParagraphStatement current || isParagraphStatement next.
Proof. apply decision_table. Qed.

(** X3. The classification tables do not overlap: a node is at most one of
    import/export, top-level declaration, VariableDeclaration, block
    statement, return and empty statement. *)
Theorem classes_disjoint (node : Node) : classCount node <= 1.
Proof.
  unfold classCount.
  destruct (isImportOrExport node) eqn:H1.
  { table_cases H1;
      unfold isTopLevelDeclaration, isVariableDeclaration, isBlockStatement,
        isReturnLikeStatement, type_is; rewrite H1; simpl; lia. }
  destruct (isTopLevelDeclaration node) eqn:H2.
  { table_cases H2;
      unfold isVariableDeclaration, isBlockStatement,
        isReturnLikeStatement, type_is; rewrite H2; simpl; lia. }
  destruct (isVariableDeclaration node) eqn:H3.
  { table_cases H3;
      unfold isBlockStatement, isReturnLikeStatement, type_is;
      rewrite H3; simpl; lia. }
  destruct (isBlockStatement node) eqn:H4.
  { table_cases H4;
      unfold isReturnLikeStatement, type_is; rewrite H4; simpl; lia. }
  destruct (isReturnLikeStatement node) eqn:H5.
  { table_cases H5; unfold type_is; rewrite H5; simpl; lia. }
  destruct (type_is "EmptyStatement" node); simpl; lia.
Qed.

(** X4. Being in the same declaration block is symmetric and transitive,
    and a node is in a block with itself exactly when it is a
    VariableDeclaration that neither destructures nor holds a function: the
    blocks are runs of such declarations of one keyword. *)
Theorem same_block_partial_equivalence (a b c : Node) :
  areInSameDeclarationBlock a b = areInSameDeclarationBlock b a /\
  (areInSameDeclarationBlock a b = true ->
   areInSameDeclarationBlock b c = true ->
   areInSameDeclarationBlock a c = true) /\
  areInSameDeclarationBlock a a =
    isVariableDeclaration a && negb (isDestructuringDeclaration a) &&
    negb (some hasFunctionInit (declarations a)).
Proof.
  rewrite !same_block_spelled. split; [| split].
  - rewrite (String.eqb_sym (kind a) (kind b)).
    destruct (isVariableDeclaration a), (isVariableDeclaration b),
      (isDestructuringDeclaration a), (isDestructuringDeclaration b),
      (String.eqb (kind b) (kind a)),
      (some hasFunctionInit (declarations a)),
      (some hasFunctionInit (declarations b)); reflexivity.
  - intros Hab Hbc.
    repeat (apply andb_true_iff in Hab; destruct Hab as [Hab ?]).
    repeat (apply andb_true_iff in Hbc; destruct Hbc as [Hbc ?]).
    assert (Hk : String.eqb (kind a) (kind c) = true).
    { apply String.eqb_eq. transitivity (kind b); now apply String.eqb_eq. }
    repeat (apply andb_true_iff; split); assumption.
  - rewrite String.eqb_refl.
    destruct (isVariableDeclaration a), (isDestructuringDeclaration a),
      (some hasFunctionInit (declarations a)); reflexivity.
Qed.

Lemma same_block_partial_equivalence_witness :
  areInSameDeclarationBlock const_a const_a = true.
Proof.
  apply (proj1 (proj2 (same_block_partial_equivalence const_a const_b const_a)));
    reflexivity.
Defined.

(** X5. Between a VariableDeclaration and a return that follows it, a blank
    line is enforced exactly when the declaration holds a function-valued
    initializer; whether it destructures plays no part. *)
Theorem declaration_then_return (current next : Node) :
  isVariableDeclaration current = true ->
  isReturnLikeStatement next = true ->
  shouldEnforceBlankLineBetween current next =
  some hasFunctionInit (declarations current).
Proof.
  intros Hc Hr. rewrite decision_table.
  rewrite (variable_declaration_not_import _ Hc), Hc, Hr.
  rewrite same_block_spelled, (return_not_variable_declaration _ Hr),
    andb_false_r.
  reflexivity.
Qed.

Lemma declaration_then_return_witness :
  shouldEnforceBlankLineBetween
    {| ref := 1; type := "VariableDeclaration"; kind := "const";
       declarations := [{| id := Some {| ctype := "ObjectPattern" |};
                           init := Some {| ctype := "Identifier" |} |}] |}
    return_y = false /\
  shouldEnforceBlankLineBetween
    {| ref := 1; type := "VariableDeclaration"; kind := "const";
       declarations := [{| id := Some {| ctype := "ObjectPattern" |};
                           init := Some {| ctype := "FunctionExpression" |} |}] |}
    return_y = true.
Proof.
  split; rewrite declaration_then_return; reflexivity.
Defined.

(** X6. Two adjacent VariableDeclarations that differ in keyword, or one of
    which destructures or holds a function-valued initializer, always get a
    blank line between them. *)
Theorem new_declaration_block (current next : Node) :
  isVariableDeclaration current = true ->
  isVariableDeclaration next = true ->
  kind current <> kind next \/
  isDestructuringDeclaration current = true \/
  isDestructuringDeclaration next = true \/
  some hasFunctionInit (declarations current) = true \/
  some hasFunctionInit (declarations next) = true ->
  shouldEnforceBlankLineBetween current next = true.
Proof.
  intros Hc Hn Hdiff. rewrite decision_table.
  rewrite (variable_declaration_not_import _ Hc), Hc,
    (variable_declaration_not_return _ Hn).
  assert (Hs : areInSameDeclarationBlock current next = false).
  { rewrite same_block_spelled, Hc, Hn. simpl.
    destruct Hdiff as [Hk | [Hd | [Hd | [Hf | Hf]]]].
    - apply String.eqb_neq in Hk. rewrite Hk. now rewrite !andb_false_r.
    - rewrite Hd. reflexivity.
    - rewrite Hd. now rewrite !andb_false_r.
    - rewrite Hf. now rewrite !andb_false_r.
    - rewrite Hf. now rewrite !andb_false_r. }
  rewrite Hs. reflexivity.
Qed.

Lemma new_declaration_block_witness :
  shouldEnforceBlankLineBetween const_b let_c = true.
Proof.
  apply new_declaration_block; [reflexivity | reflexivity |].
  left. discriminate.
Defined.

(** X7. The pairs that get no enforced blank line are exactly these: two
    import/export declarations; two declarations of one block; a
    VariableDeclaration without function-valued initializer followed by a
    return; and two statements of which the first is neither import/export
    nor VariableDeclaration nor paragraph statement and the second neither
    VariableDeclaration nor paragraph statement. *)
Theorem no_blank_exactly (current next : Node) :
  shouldEnforceBlankLineBetween current next = false <->
  (isImportOrExport current = true /\ isImportOrExport next = true) \/
  areInSameDeclarationBlock current next = true \/
  (isVariableDeclaration current = true /\
   isReturnLikeStatement next = true /\
   some hasFunctionInit (declarations current) = false) \/
  (isImportOrExport current = false /\
   isVariableDeclaration current = false /\
   isParagraphStatement current = false /\
   isVariableDeclaration next = false /\
   isParagraphStatement next = false).
Proof.
  rewrite decision_table. split.
  - destruct (isImportOrExport current) eqn:Hi.
    { intros H%negb_false_iff. left. now split. }
    destruct (isVariableDeclaration current) eqn:Hc.
    + destruct (areInSameDeclarationBlock current next);
        [intros _; right; left; reflexivity |].
      simpl. intros H. apply orb_false_iff in H as [Hr%negb_false_iff Hf].
      right. right. left. now repeat split.
    + intros H. apply orb_false_iff in H as [H Hpn].
      apply orb_false_iff in H as [Hn Hpc].
      right. right. right. now repeat split.
  - intros [[Hi Hn] | [Hs | [(Hc & Hr & Hf) | (Hi & Hc & Hpc & Hn & Hpn)]]].
    + rewrite Hi, Hn. reflexivity.
    + destruct (same_block_needs_declarations _ _ Hs) as [Hc _].
      rewrite (variable_declaration_not_import _ Hc), Hc, Hs. reflexivity.
    + rewrite (variable_declaration_not_import _ Hc), Hc, Hr, Hf.
      now rewrite andb_false_r.
    + rewrite Hi, Hc, Hn, Hpc, Hpn. reflexivity.
Qed.

Lemma no_blank_exactly_witness :
  shouldEnforceBlankLineBetween call_a return_y = false /\
  areInSameDeclarationBlock const_a let_c = false.
Proof.
  split.
  - apply (proj2 (no_blank_exactly call_a return_y)).
    right. right. right. repeat split.
  - destruct (proj1 (no_blank_exactly const_a const_b) eq_refl)
      as [[Hi _] | [_ | [(_ & Hr & _) | (_ & Hc & _)]]];
      [discriminate Hi | reflexivity | discriminate Hr | discriminate Hc].
Defined.

End DecideExtras.

Module SequenceMore.
Import Classify Decide Sequence SequenceFacts Observe.

Section LoopMore.

Variable print : Node -> Doc.
Variable isNextLineEmpty : Node -> bool.

Local Abbreviation step := (callback print isNextLineEmpty).
Local Abbreviation emit := (emit print isNextLineEmpty).
Local Abbreviation separator := (separator isNextLineEmpty).

Lemma withoutEmpty_elem s body :
  s ∈ withoutEmpty body -> type_is "EmptyStatement" s = false.
Proof.
  unfold withoutEmpty. intros [Hne _]%list_elem_of_filter.
  now apply DecideFacts.type_is_false.
Qed.

Lemma callback_skip statements lastStatement st c :
  type_is "EmptyStatement" c = true ->
  step statements lastStatement st c = st.
Proof. intros Hc. unfold callback. destruct st. now rewrite Hc. Qed.

(** One turn of the callback on a statement that is kept: its doc is pushed,
    then nothing, one [hardline] or two. *)
Lemma callback_keep statements lastStatement parts index c :
  type_is "EmptyStatement" c = false ->
  exists extra,
    step statements lastStatement (parts, index) c =
      (parts ++ print c :: extra, index + 1) /\
    (extra = [] \/ extra = [hardline] \/ extra = [hardline; hardline]).
Proof.
  intros Hc. unfold callback. rewrite Hc.
  destruct (differs_from c lastStatement).
  - destruct (isNextLineEmpty c || _).
    + exists [hardline; hardline]. rewrite <- !app_assoc. auto.
    + exists [hardline]. rewrite <- !app_assoc. auto.
  - exists []. auto.
Qed.

(** The loop only ever appends to [parts]. *)
Lemma loop_extends statements lastStatement rest : forall st,
  exists suffix,
    fst (fold_left (step statements lastStatement) rest st) =
    fst st ++ suffix.
Proof.
  induction rest as [| c rest IH]; intros [parts index].
  - exists []. simpl. now rewrite app_nil_r.
  - cbn [fold_left]. destruct (type_is "EmptyStatement" c) eqn:Hc.
    + rewrite (callback_skip _ _ _ _ Hc). apply IH.
    + destruct (callback_keep statements lastStatement parts index c Hc)
        as (extra & -> & _).
      destruct (IH (parts ++ print c :: extra, index + 1)) as [suffix ->].
      exists (print c :: extra ++ suffix). simpl.
      now rewrite <- app_assoc.
Qed.

(** What the loop adds besides [hardline]s is the docs of the statements
    it keeps, in order. *)
Lemma loop_prints_each_once statements lastStatement rest :
  (forall n, isHardline (print n) = false) ->
  forall st,
    withoutHardlines
      (fst (fold_left (step statements lastStatement) rest st)) =
    withoutHardlines (fst st) ++ (print <$> withoutEmpty rest).
Proof.
  intros Hprint. induction rest as [| c rest IH]; intros [parts index].
  - simpl. now rewrite app_nil_r.
  - cbn [fold_left]. destruct (type_is "EmptyStatement" c) eqn:Hc.
    + rewrite (callback_skip _ _ _ _ Hc), IH.
      now rewrite (withoutEmpty_skip _ _ Hc).
    + destruct (callback_keep statements lastStatement parts index c Hc)
        as (extra & -> & Hextra).
      rewrite IH, (withoutEmpty_keep _ _ Hc). simpl fst.
      unfold withoutHardlines. rewrite filter_app, filter_cons_True
        by apply Hprint.
      assert (Hnone : filter (fun d => isHardline d = false) extra = [])
        by (destruct Hextra as [-> | [-> | ->]]; reflexivity).
      rewrite Hnone, fmap_cons. now rewrite <- app_assoc.
Qed.

(** Two source-gap tests that agree wherever the loop asks give one loop. *)
Lemma loop_asks_kept_statements
    (gap1 gap2 : Node -> bool) statements lastStatement rest :
  (forall s, s ∈ withoutEmpty rest ->
             differs_from s lastStatement = true -> gap1 s = gap2 s) ->
  forall st,
    fold_left (callback print gap1 statements lastStatement) rest st =
    fold_left (callback print gap2 statements lastStatement) rest st.
Proof.
  induction rest as [| c rest IH]; intros Hagree st; [reflexivity |].
  cbn [fold_left]. destruct (type_is "EmptyStatement" c) eqn:Hc.
  - rewrite (withoutEmpty_skip _ _ Hc) in Hagree.
    assert (Hskip : forall gap,
              callback print gap statements lastStatement st c = st)
      by (intros gap; unfold callback; destruct st; now rewrite Hc).
    rewrite !Hskip. now apply IH.
  - rewrite (withoutEmpty_keep _ _ Hc) in Hagree.
    assert (Hstep : callback print gap1 statements lastStatement st c =
                    callback print gap2 statements lastStatement st c).
    { unfold callback. destruct st. rewrite Hc.
      destruct (differs_from c lastStatement) eqn:Hd; [| reflexivity].
      rewrite (Hagree c); [reflexivity | | exact Hd].
      apply list_elem_of_here. }
    rewrite Hstep. apply IH. intros s Hs. apply Hagree.
    now apply list_elem_of_further.
Qed.

Lemma emit_length statements :
  2 * length statements - 1 <= length (emit statements) /\
  length (emit statements) <= 3 * length statements - 2.
Proof.
  induction statements as [| x l IH]; [simpl; lia |].
  destruct l as [| y l]; [simpl; lia |].
  rewrite emit_cons_cons. unfold Sequence.separator.
  simpl length in *.
  destruct (isNextLineEmpty x || shouldEnforceBlankLineBetween x y);
    simpl length; rewrite ?length_app; simpl length; lia.
Qed.

End LoopMore.

End SequenceMore.

Module SequenceExtras.
Import Classify Decide Sequence SequenceFacts SequenceMore Observe Examples.

Section Emitted.

Variable print : Node -> Doc.
Variable isNextLineEmpty : Node -> bool.

Local Abbreviation printed := (printStatementSequence print isNextLineEmpty).

Lemma printed_head body :
  head (printed body) = print <$> head (withoutEmpty body).
Proof.
  rewrite printStatementSequence_filtered.
  destruct (withoutEmpty body) as [| c rest] eqn:Hbody; [reflexivity |].
  assert (Hc : type_is "EmptyStatement" c = false).
  { apply (withoutEmpty_elem c body). rewrite Hbody. apply list_elem_of_here. }
  unfold printStatementSequence. cbn [fold_left].
  destruct (callback_keep print isNextLineEmpty
              (filter (fun statement => type statement <> "EmptyStatement")
                 (c :: rest))
              (last (filter (fun statement =>
                               type statement <> "EmptyStatement")
                       (c :: rest)))
              [] 0 c Hc) as (extra & -> & _).
  destruct (loop_extends print isNextLineEmpty
              (filter (fun statement => type statement <> "EmptyStatement")
                 (c :: rest))
              (last (filter (fun statement =>
                               type statement <> "EmptyStatement")
                       (c :: rest)))
              rest ([] ++ print c :: extra, 0 + 1)) as [suffix ->].
  reflexivity.
Qed.

Lemma withoutEmpty_nil body :
  withoutEmpty body = [] <->
  Forall (fun s => type s = "EmptyStatement") body.
Proof.
  induction body as [| c rest IH].
  - split; [constructor | reflexivity].
  - destruct (type_is "EmptyStatement" c) eqn:Hc.
    + rewrite (withoutEmpty_skip _ _ Hc), IH, Forall_cons.
      apply DecideFacts.type_is_true in Hc. tauto.
    + rewrite (withoutEmpty_keep _ _ Hc), Forall_cons.
      apply DecideFacts.type_is_false in Hc.
      split; [discriminate | tauto].
Qed.

(** X8. The emitter produces nothing exactly when every statement of the
    body is an empty statement (the empty body included). *)
Theorem prints_nothing_iff_all_empty (body : list Node) :
  printed body = [] <->
  Forall (fun s => type s = "EmptyStatement") body.
Proof.
  rewrite <- withoutEmpty_nil. split.
  - intros Hout. pose proof (printed_head body) as Hhead.
    rewrite Hout in Hhead. destruct (withoutEmpty body); [reflexivity |].
    discriminate.
  - intros Hnil. rewrite printStatementSequence_filtered, Hnil. reflexivity.
Qed.

(** X9. The output starts with the doc of the first non-empty statement:
    no separator is put before the first statement, whatever the source
    gaps and whatever empty statements come first. *)
Theorem no_leading_separator (body : list Node) :
  head (printed body) = print <$> head (withoutEmpty body).
Proof. apply printed_head. Qed.

(** X10. When the renderer never yields a bare [hardline], the output
    without its [hardline]s is the docs of the non-empty statements, each
    once and in source order: the loop drops no statement, repeats none and
    adds nothing but line breaks. *)
Theorem each_statement_printed_once (body : list Node) :
  (forall n, isHardline (print n) = false) ->
  withoutHardlines (printed body) = print <$> withoutEmpty body.
Proof.
  intros Hprint. unfold printStatementSequence.
  rewrite (loop_prints_each_once print isNextLineEmpty _ _ body Hprint).
  reflexivity.
Qed.

(** X11. For [n] non-empty statements that are distinct nodes the output
    has between [2n - 1] and [3n - 2] parts: [n] docs and, between two
    neighbours, one line break or two, never more. *)
Theorem output_length_bounds (body : list Node) :
  NoDup (ref <$> withoutEmpty body) ->
  2 * length (withoutEmpty body) - 1 <= length (printed body) /\
  length (printed body) <= 3 * length (withoutEmpty body) - 2.
Proof.
  intros Hnd. rewrite (printStatementSequence_emit _ _ _ Hnd).
  apply emit_length.
Qed.

(** X12. Printing composes: for a body split in two, with [a] the last
    non-empty statement of the first part and [b] the first non-empty
    statement of the second, the output is the output of the first part,
    the separator between [a] and [b], and the output of the second part
    (the non-empty statements being distinct nodes). *)
Theorem printing_composes (body1 body2 : list Node) (a b : Node) :
  NoDup (ref <$> withoutEmpty (body1 ++ body2)) ->
  last (withoutEmpty body1) = Some a ->
  head (withoutEmpty body2) = Some b ->
  printed (body1 ++ body2) =
  printed body1 ++ separator isNextLineEmpty a b ++ printed body2.
Proof.
  intros Hnd Ha Hb.
  assert (Happ : withoutEmpty (body1 ++ body2) =
                 withoutEmpty body1 ++ withoutEmpty body2)
    by apply filter_app.
  rewrite (printStatementSequence_emit _ _ _ Hnd), Happ.
  rewrite Happ, fmap_app in Hnd.
  apply NoDup_app in Hnd as (Hnd1 & _ & Hnd2).
  rewrite (printStatementSequence_emit _ _ _ Hnd1),
    (printStatementSequence_emit _ _ _ Hnd2).
  apply last_Some in Ha as [pre ->].
  destruct (withoutEmpty body2) as [| b' post]; [discriminate |].
  injection Hb as ->.
  rewrite <- app_assoc. apply emit_split.
Qed.

End Emitted.

(** X13. The source-gap test is asked only about non-empty statements that
    are not the last one: two tests that agree on those give the same
    output, whatever they answer on empty statements and on the last
    statement. *)
Theorem gap_asked_only_between_statements
    (print : Node -> Doc) (gap1 gap2 : Node -> bool) (body : list Node) :
  (forall s, s ∈ withoutEmpty body ->
     (forall l, last (withoutEmpty body) = Some l -> ref s <> ref l) ->
     gap1 s = gap2 s) ->
  printStatementSequence print gap1 body =
  printStatementSequence print gap2 body.
Proof.
  intros Hagree. unfold printStatementSequence. fold (withoutEmpty body).
  rewrite (loop_asks_kept_statements print gap1 gap2); [reflexivity |].
  intros s Hs Hdiff. apply Hagree; [exact Hs |].
  intros l Hl. rewrite Hl in Hdiff. simpl in Hdiff.
  now apply negb_true_iff, Nat.eqb_neq in Hdiff.
Qed.

Lemma prints_nothing_iff_all_empty_witness :
  printStatementSequence show (gapAfter 2) [empty; empty] = [].
Proof.
  apply (proj2 (prints_nothing_iff_all_empty show (gapAfter 2)
                  [empty; empty])).
  repeat constructor.
Defined.

Lemma each_statement_printed_once_witness :
  withoutHardlines
    (printStatementSequence show (gapAfter 1) [call_a; empty; call_b]) =
  [show call_a; show call_b].
Proof.
  rewrite (each_statement_printed_once show (gapAfter 1) _
             ltac:(intros n; reflexivity)).
  reflexivity.
Defined.

Lemma output_length_bounds_witness :
  2 * 2 - 1 <=
    length (printStatementSequence show (gapAfter 1) [call_a; empty; call_b]) /\
  length (printStatementSequence show (gapAfter 1) [call_a; empty; call_b])
    <= 3 * 2 - 2.
Proof.
  apply (output_length_bounds show (gapAfter 1) [call_a; empty; call_b]).
  apply (bool_decide_unpack _). vm_compute. exact I.
Defined.

Lemma printing_composes_witness :
  printStatementSequence show (gapAfter 1)
    ([call_a; empty] ++ [empty; call_b; statement 4 "ReturnStatement"]) =
  printStatementSequence show (gapAfter 1) [call_a; empty] ++
  separator (gapAfter 1) call_a call_b ++
  printStatementSequence show (gapAfter 1)
    [empty; call_b; statement 4 "ReturnStatement"].
Proof.
  apply printing_composes; [| reflexivity | reflexivity].
  apply (bool_decide_unpack _). vm_compute. exact I.
Defined.

Lemma gap_asked_only_between_statements_witness :
  printStatementSequence show (gapAfter 1) [call_a; empty; call_b] =
  printStatementSequence show (fun _ => true) [call_a; empty; call_b].
Proof.
  apply gap_asked_only_between_statements.
  intros s Hs Hlast.
  assert (Hcases : s = call_a \/ s = call_b).
  { change (withoutEmpty [call_a; empty; call_b]) with [call_a; call_b] in Hs.
    apply elem_of_cons in Hs as [-> | Hs]; [now left |].
    apply list_elem_of_singleton in Hs as ->. now right. }
  destruct Hcases as [-> | ->]; [reflexivity |].
  exfalso. apply (Hlast call_b); reflexivity.
Defined.

End SequenceExtras.

Module ClauseExtras.
Import TryStatement Observe Examples.

Lemma hardBreaks_cons t ts :
  hardBreaks (t :: ts) = Nat.b2n (isHardToken t) + hardBreaks ts.
Proof.
  unfold hardBreaks. rewrite filter_cons.
  destruct (decide (isHardToken t = true)) as [-> | Hn]; [reflexivity |].
  apply not_true_is_false in Hn. now rewrite Hn.
Qed.

Lemma hardBreaks_app ts1 ts2 :
  hardBreaks (ts1 ++ ts2) = hardBreaks ts1 + hardBreaks ts2.
Proof. unfold hardBreaks. now rewrite filter_app, length_app. Qed.

Lemma softBreaks_cons t ts :
  softBreaks (t :: ts) = Nat.b2n (isSoftToken t) + softBreaks ts.
Proof.
  unfold softBreaks. rewrite filter_cons.
  destruct (decide (isSoftToken t = true)) as [-> | Hn]; [reflexivity |].
  apply not_true_is_false in Hn. now rewrite Hn.
Qed.

Lemma softBreaks_app ts1 ts2 :
  softBreaks (ts1 ++ ts2) = softBreaks ts1 + softBreaks ts2.
Proof. unfold softBreaks. now rewrite filter_app, length_app. Qed.

Ltac count_breaks :=
  simpl tokens;
  repeat (rewrite ?hardBreaks_cons, ?hardBreaks_app,
            ?softBreaks_cons, ?softBreaks_app);
  simpl; unfold hardBreaks, softBreaks; simpl; lia.

Section Clauses.

Variable print : SubNode -> Doc.
Variable isBlockComment : Comment -> bool.
Variable hasNewline : string -> nat -> bool -> bool.
Variable options : Options.

Local Abbreviation catchClause :=
  (printCatchClause print isBlockComment hasNewline options).
Local Abbreviation tryStatement :=
  (printTryStatement print isBlockComment hasNewline options).
Local Abbreviation forcesBreak :=
  (commentForcesBreak isBlockComment hasNewline options).

(** The forced breaks a catch clause adds to those of its children. *)
Lemma catch_hard_breaks clause :
  hardBreaks (tokens (catchClause clause)) =
  1 + match param clause with
      | Some p => hardBreaks (tokens (print p))
      | None => 0
      end + hardBreaks (tokens (print (body clause))).
Proof.
  unfold printCatchClause. destruct (param clause) as [p |].
  - destruct (hasComment p _); count_breaks.
  - count_breaks.
Qed.

(** The stream of a try statement, clause by clause. *)
Lemma try_tokens node :
  tokens (tryStatement node) =
  TText "try " :: tokens (print (block node)) ++
  match handler node with
  | Some h => TText " " :: tokens (catchClause h)
  | None => []
  end ++
  match finalizer node with
  | Some f => THard :: TText "finally " :: tokens (print f)
  | None => []
  end.
Proof.
  unfold printTryStatement.
  destruct (handler node) as [h |], (finalizer node) as [f |];
    try remember (catchClause h) as d; simpl;
    rewrite ?app_nil_r, <- ?app_assoc; reflexivity.
Qed.

(** X14. A try statement adds one forced line break for each clause it
    has, and no other: the forced breaks of its doc are those of its
    children plus one for a catch clause and one for a finalizer. A try
    with neither clause adds none. *)
Theorem one_forced_break_per_clause (node : TryNode) :
  hardBreaks (tokens (tryStatement node)) =
  hardBreaks (tokens (print (block node))) +
  match handler node with
  | Some h =>
      1 + match param h with
          | Some p => hardBreaks (tokens (print p))
          | None => 0
          end + hardBreaks (tokens (print (body h)))
  | None => 0
  end +
  match finalizer node with
  | Some f => 1 + hardBreaks (tokens (print f))
  | None => 0
  end.
Proof.
  rewrite try_tokens.
  destruct (handler node) as [h |], (finalizer node) as [f |];
    repeat (rewrite ?hardBreaks_cons, ?hardBreaks_app);
    rewrite ?catch_hard_breaks; simpl; unfold hardBreaks; simpl; lia.
Qed.

(** X15. A catch clause adds optional line breaks only around a parameter
    with a breaking comment, and then exactly two; without parameter it
    adds none and looks at no comment. *)
Theorem soft_breaks_only_for_commented_parameter (clause : CatchClause) :
  softBreaks (tokens (catchClause clause)) =
  match param clause with
  | Some p =>
      (if hasComment p forcesBreak then 2 else 0) +
      softBreaks (tokens (print p))
  | None => 0
  end + softBreaks (tokens (print (body clause))).
Proof.
  unfold printCatchClause. destruct (param clause) as [p |].
  - destruct (hasComment p _); count_breaks.
  - count_breaks.
Qed.

(** X16. One comment on the bound parameter that is not block-style is
    enough for the breaking form, whatever its position and whatever other
    comments are attached; and a parameter whose comments are all
    block-style with no newline on either side prints compactly. *)
Theorem line_comment_breaks_parameter
    (clause : CatchClause) (p : SubNode) :
  param clause = Some p ->
  (forall c, c ∈ comments p -> isBlockComment c = false ->
     catchClause clause =
       DArray [hardline; DString "catch ";
               DArray [DString "("; indent (DArray [softline; print p]);
                       softline; DString ") "];
               print (body clause)]) /\
  ((forall c, c ∈ comments p ->
      isBlockComment c = true /\
      hasNewline (originalText options) (locEnd c) false = false /\
      hasNewline (originalText options) (locStart c) true = false) ->
   catchClause clause =
     DArray [hardline; DString "catch ";
             DArray [DString "("; print p; DString ") "];
             print (body clause)]).
Proof.
  intros Hp. unfold printCatchClause. rewrite Hp. split.
  - intros c Hin Hline.
    assert (Hsome : hasComment p forcesBreak = true).
    { unfold hasComment, some. apply existsb_exists. exists c. split.
      - now apply list_elem_of_In.
      - unfold commentForcesBreak. now rewrite Hline. }
    now rewrite Hsome.
  - intros Hall.
    assert (Hnone : hasComment p forcesBreak = false).
    { unfold hasComment, some.
      destruct (existsb forcesBreak (comments p)) eqn:He; [| reflexivity].
      apply existsb_exists in He as (c & Hin & Hc).
      apply list_elem_of_In in Hin.
      destruct (Hall c Hin) as (Hb & He1 & He2).
      unfold commentForcesBreak in Hc.
      rewrite Hb, He1, He2, !andb_false_r in Hc. discriminate. }
    now rewrite Hnone.
Qed.

End Clauses.

Lemma line_comment_breaks_parameter_witness :
  printCatchClause showChild blockByType newlineNowhere source
    catchCommented =
  DArray [hardline; DString "catch ";
          DArray [DString "(";
                  indent (DArray [softline; showChild commentedParam]);
                  softline; DString ") "];
          showChild handlerBody] /\
  printCatchClause showChild blockByType newlineNowhere source
    catchBlockCommented =
  DArray [hardline; DString "catch ";
          DArray [DString "("; showChild blockCommentedParam; DString ") "];
          showChild handlerBody].
Proof.
  split.
  - apply (proj1 (line_comment_breaks_parameter showChild blockByType
             newlineNowhere source catchCommented commentedParam eq_refl)
             lineComment); [apply list_elem_of_here | reflexivity].
  - apply (proj2 (line_comment_breaks_parameter showChild blockByType
             newlineNowhere source catchBlockCommented blockCommentedParam
             eq_refl)).
    intros c Hin. apply list_elem_of_singleton in Hin as ->.
    repeat split.
Defined.

End ClauseExtras.
